(** * Account REST service: model of [service/routes.py]

    The request handlers of [service/routes.py] are embedded as functions in a
    small state-and-exception monad over the account table.  The [Account]
    model class ([service/models.py]), the error handlers and the status
    constants are not part of the sources at hand; they are modelled from the
    specification and marked as such. *)

From Stdlib Require Import ZArith Ascii String.
From stdpp Require Import gmap strings list fin_maps.

Local Open Scope string_scope.
Local Open Scope Z_scope.

#[local] Set Warnings "-register-all".

(** ** JSON values, as [request.get_json()] and [jsonify] exchange them *)

Inductive json :=
| JNull
| JBool (b : bool)
| JNum (n : Z)
| JFloat (mantissa exponent : Z)
| JStr (s : string)
| JArr (l : list json)
| JObj (d : gmap string json).

(** ** Calendar dates and their ISO rendering *)

Module Date.

Record date := mkDate { year : Z; month : Z; day : Z }.

Definition is_leap (y : Z) : bool :=
  (y mod 4 =? 0) && negb (y mod 100 =? 0) || (y mod 400 =? 0).

Definition days_in_month (y m : Z) : Z :=
  match m with
  | 1 | 3 | 5 | 7 | 8 | 10 | 12 => 31
  | 4 | 6 | 9 | 11 => 30
  | 2 => if is_leap y then 29 else 28
  | _ => 0
  end.

(** The values a [datetime.date] can hold: years 1 to 9999, a month of the
    year and a day of that month. *)
Definition valid (d : date) : bool :=
  (1 <=? year d) && (year d <=? 9999) &&
  (1 <=? month d) && (month d <=? 12) &&
  (1 <=? day d) && (day d <=? days_in_month (year d) (month d)).

Definition digit_char (n : Z) : ascii := ascii_of_nat (Z.to_nat (48 + n)).

Definition digit_of_char (c : ascii) : option Z :=
  let n := Z.of_nat (nat_of_ascii c) in
  if (48 <=? n) && (n <=? 57) then Some (n - 48) else None.

Definition two_digits (n : Z) : string :=
  String (digit_char (n / 10 mod 10)) (String (digit_char (n mod 10)) "").

Definition four_digits (n : Z) : string :=
  String (digit_char (n / 1000 mod 10))
    (String (digit_char (n / 100 mod 10)) (two_digits n)).

(** Modelled from the spec: [date_joined] is "rendered as an ISO date
    string", of the shape "YYYY-MM-DD" (the rendering used by the missing
    [service/models.py]). *)
Definition isoformat (d : date) : string :=
  four_digits (year d) ++ "-" ++ two_digits (month d) ++ "-" ++ two_digits (day d).

Definition is_dash (c : ascii) : bool := Ascii.eqb c "-"%char.

(** Modelled from the spec: the inverse reading of a "YYYY-MM-DD" string;
    any other string, or a day that is not in the calendar, is refused. *)
Definition fromisoformat (s : string) : option date :=
  match s with
  | String y1 (String y2 (String y3 (String y4 (String s1
      (String m1 (String m2 (String s2 (String d1 (String d2 EmptyString))))))))) =>
      if is_dash s1 && is_dash s2 then
        a ← digit_of_char y1; b ← digit_of_char y2;
        c ← digit_of_char y3; e ← digit_of_char y4;
        f ← digit_of_char m1; g ← digit_of_char m2;
        h ← digit_of_char d1; i ← digit_of_char d2;
        let r := mkDate (1000 * a + 100 * b + 10 * c + e) (10 * f + g) (10 * h + i) in
        if valid r then Some r else None
      else None
  | _ => None
  end.

End Date.

(** ** Exceptions and the handler monad *)

(** What a handler can raise: [abort(code, description)] of the web framework,
    the validation error of [Account.deserialize], and a fault of the model
    layer. *)
Inductive exn :=
| HTTPException (code : Z) (description : option string)
| DataValidationError (msg : string)
| ModelError (msg : string).

Inductive result (A : Type) :=
| Ok (a : A)
| Err (e : exn).
Arguments Ok {A} a.
Arguments Err {A} e.

#[global] Instance result_ret : MRet result := λ A a, Ok a.

#[global] Instance result_bind : MBind result :=
  λ A B k r, match r with
             | Ok a => k a
             | Err e => Err e
             end.

(** ** service.common.status *)

(** Modelled from the spec: the status constants of [service/common/status.py],
    which is not among the sources; the standard HTTP codes the spec's table
    names. *)
Module status.
Definition HTTP_200_OK : Z := 200.
Definition HTTP_201_CREATED : Z := 201.
Definition HTTP_204_NO_CONTENT : Z := 204.
Definition HTTP_400_BAD_REQUEST : Z := 400.
Definition HTTP_404_NOT_FOUND : Z := 404.
Definition HTTP_415_UNSUPPORTED_MEDIA_TYPE : Z := 415.
Definition HTTP_500_INTERNAL_SERVER_ERROR : Z := 500.
End status.

(** ** service.models *)

Module Models.

(** Modelled from the spec: the [Account] entity of the missing
    [service/models.py].  A fresh [Account()] has no attribute set, hence the
    optional fields; [id] is set only by the storage layer. *)
Record Account := mkAccount {
  id : option Z;
  name : option string;
  email : option string;
  address : option string;
  phone_number : option string;
  date_joined : option Date.date
}.

Definition new_account : Account := mkAccount None None None None None None.

(** "Fully populated": the required attributes and the date are set, and the
    date is a calendar date.  [phone_number] is optional, [id] is the
    storage layer's. *)
Definition fully_populated (a : Account) : Prop :=
  is_Some (name a) ∧ is_Some (email a) ∧ is_Some (address a) ∧
  ∃ d, date_joined a = Some d ∧ Date.valid d = true.

Definition json_of_option {A} (f : A → json) (o : option A) : json :=
  match o with
  | Some x => f x
  | None => JNull
  end.

(** Modelled from the spec: [serialize()] "produces a mapping of all fields
    to JSON-compatible values", with the keys of the spec's body shape and
    [date_joined] as an ISO date string. *)
Definition serialize (self : Account) : gmap string json :=
  <["id" := json_of_option JNum (id self)]>
  (<["name" := json_of_option JStr (name self)]>
  (<["email" := json_of_option JStr (email self)]>
  (<["address" := json_of_option JStr (address self)]>
  (<["phone_number" := json_of_option JStr (phone_number self)]>
  (<["date_joined" := json_of_option (λ d, JStr (Date.isoformat d)) (date_joined self)]>
   ∅))))).

(** The value under a key of a payload; a payload that is no mapping has no
    keys. *)
Definition get (data : json) (k : string) : option json :=
  match data with
  | JObj d => d !! k
  | _ => None
  end.

Definition required_string (data : json) (k : string) : result string :=
  match get data k with
  | Some (JStr s) => Ok s
  | Some _ => Err (DataValidationError ("Invalid Account: wrong type for " ++ k))
  | None => Err (DataValidationError ("Invalid Account: missing " ++ k))
  end.

Definition optional_string (data : json) (k : string) : result (option string) :=
  match get data k with
  | None | Some JNull => Ok None
  | Some (JStr s) => Ok (Some s)
  | Some _ => Err (DataValidationError ("Invalid Account: wrong type for " ++ k))
  end.

Definition optional_date (today : Date.date) (data : json) (k : string)
  : result Date.date :=
  match get data k with
  | None | Some JNull => Ok today
  | Some (JStr s) =>
      match Date.fromisoformat s with
      | Some d => Ok d
      | None => Err (DataValidationError ("Invalid Account: wrong type for " ++ k))
      end
  | Some _ => Err (DataValidationError ("Invalid Account: wrong type for " ++ k))
  end.

(** Modelled from the spec: [deserialize(payload)] "populates fields from a
    mapping of string keys to values.  Fails with a ValidationError when a
    required key (name, email, address) is absent or of the wrong type.
    Does not touch id."  [phone_number] is optional and [date_joined]
    "defaults to creation date if not supplied": [today] is the date of the
    request.  The required keys are read first. *)
Definition deserialize (today : Date.date) (self : Account) (data : json)
  : result Account :=
  n ← required_string data "name";
  e ← required_string data "email";
  a ← required_string data "address";
  p ← optional_string data "phone_number";
  d ← optional_date today data "date_joined";
  Ok (mkAccount (id self) (Some n) (Some e) (Some a) p (Some d)).

(** The storage layer: the account table, keyed by primary key, and the
    sequence the next generated [id] comes from. *)
Record store := mkStore {
  rows : gmap Z Account;
  next_id : Z
}.

Definition empty_store : store := mkStore ∅ 1.

(** Representation invariant of the table: a row sits under its own [id],
    and the sequence is ahead of every [id] in use. *)
Definition wf_store (st : store) : Prop :=
  map_Forall (λ i a, id a = Some i ∧ i < next_id st) (rows st).

#[global] Instance wf_store_dec st : Decision (wf_store st).
Proof. unfold wf_store. apply _. Defined.

(** Code that reads or writes the table and may raise. *)
Definition M (A : Type) : Type := store → result A * store.

#[global] Instance M_ret : MRet M := λ A a st, (Ok a, st).

#[global] Instance M_bind : MBind M :=
  λ A B k m st, match m st with
                | (Ok a, st') => k a st'
                | (Err e, st') => (Err e, st')
                end.

Definition raise {A} (e : exn) : M A := λ st, (Err e, st).

Definition lift {A} (r : result A) : M A := λ st, (r, st).

(** Modelled from the spec: [create()] "inserts a new row for this instance
    into the storage layer; assigns the generated id back onto the
    instance".  The storage layer is taken not to reject the insert. *)
Definition create (self : Account) : M Account :=
  λ st,
    let i := next_id st in
    let self' := mkAccount (Some i) (name self) (email self) (address self)
                   (phone_number self) (date_joined self) in
    (Ok self', mkStore (<[i := self']> (rows st)) (i + 1)).

(** Modelled from the spec: [update()] "persists the current in-memory field
    values to the existing row identified by id", and is erroneous on an
    instance with no assigned id (or no such row). *)
Definition update (self : Account) : M unit :=
  λ st,
    match id self with
    | Some i =>
        match rows st !! i with
        | Some _ => (Ok tt, mkStore (<[i := self]> (rows st)) (next_id st))
        | None => (Err (ModelError "Update called on a row that does not exist"), st)
        end
    | None => (Err (ModelError "Update called with empty ID field"), st)
    end.

(** Modelled from the spec: [delete()] "removes the row identified by id
    from storage.  No-op if the row is already absent." *)
Definition delete (self : Account) : M unit :=
  λ st,
    match id self with
    | Some i => (Ok tt, mkStore (base.delete i (rows st)) (next_id st))
    | None => (Ok tt, st)
    end.

(** Modelled from the spec: [find(id)] "looks up a single row by primary
    key; returns an absent/empty result (not an error) when no row
    matches". *)
Definition find (i : Z) : M (option Account) :=
  λ st, (Ok (rows st !! i), st).

(** Modelled from the spec: [all()] "returns every row", in no promised
    order. *)
Definition all : M (list Account) :=
  λ st, (Ok ((map_to_list (rows st)).*2), st).

End Models.

(** ** service.routes *)

Module Routes.
Import Models status.

(** What a handler reads of the request: the [Content-Type] header, if any,
    and the outcome of the framework's [request.get_json()] (the parsed
    body, or the error the framework raises for a body it cannot parse). *)
Record request := mkRequest {
  content_type : option string;
  get_json : result json
}.

Inductive body :=
| BodyJson (j : json)
| BodyText (s : string)
| BodyError (description : option string).

Record response := mkResponse {
  status_code : Z;
  data : body;
  headers : list (string * string)
}.

Definition jsonify (j : json) : body := BodyJson j.

Definition make_response (b : body) (code : Z) (hdrs : list (string * string))
  : response := mkResponse code b hdrs.

Definition abort {A} (code : Z) (description : option string) : M A :=
  raise (HTTPException code description).

(** Python truth value of [headers.get(...)]: [None] and the empty string
    are false. *)
Definition truthy (o : option string) : bool :=
  match o with
  | Some s => negb (String.eqb s "")
  | None => false
  end.

(** [check_content_type] (routes.py, l.137-146). *)
Definition check_content_type (req : request) (media_type : string) : M unit :=
  let content_type := content_type req in
  if truthy content_type && bool_decide (content_type = Some media_type)
  then mret tt
  else abort HTTP_415_UNSUPPORTED_MEDIA_TYPE
         (Some ("Content-Type must be " ++ media_type)).

(** [health] (l.16-19) and [index] (l.25-35). *)
Definition health : M response :=
  mret (make_response (jsonify (JObj {[ "status" := JStr "OK" ]})) HTTP_200_OK []).

Definition index : M response :=
  mret (make_response
          (jsonify (JObj (<["name" := JStr "Account REST API Service"]>
                          {[ "version" := JStr "1.0" ]})))
          HTTP_200_OK []).

(** [create_accounts] (l.41-58).  [today] is the date of the request. *)
Definition create_accounts (today : Date.date) (req : request) : M response :=
  check_content_type req "application/json" ;;
  let account := new_account in
  payload ← lift (get_json req);
  account ← lift (deserialize today account payload);
  account ← create account;
  let message := serialize account in
  let location_url := "/" in
  mret (make_response (jsonify (JObj message)) HTTP_201_CREATED
          [("Location", location_url)]).

(** [list_accounts] (l.66-76). *)
Definition list_accounts : M response :=
  accs ← all;
  let out := (λ acc, JObj (serialize acc)) <$> accs in
  mret (make_response (jsonify (JArr out)) HTTP_200_OK []).

(** [read_account] (l.84-94). *)
Definition read_account (id : Z) : M response :=
  acc ← find id;
  match acc with
  | None => abort HTTP_404_NOT_FOUND None
  | Some acc =>
      let out := serialize acc in
      mret (make_response (jsonify (JObj out)) HTTP_200_OK [])
  end.

(** [update_account] (l.102-113). *)
Definition update_account (today : Date.date) (id : Z) (req : request)
  : M response :=
  find_account ← find id;
  match find_account with
  | None => mret (make_response (BodyText "") HTTP_404_NOT_FOUND [])
  | Some find_account =>
      new_data ← lift (get_json req);
      find_account ← lift (deserialize today find_account new_data);
      update find_account ;;
      found ← find id;
      match found with
      | Some acc => mret (make_response (jsonify (JObj (serialize acc))) HTTP_200_OK [])
      | None => raise (ModelError "no account to serialize")
      end
  end.

(** [delete_account] (l.121-130). *)
Definition delete_account (id : Z) : M response :=
  acc ← find id;
  match acc with
  | Some acc => delete acc
  | None => mret tt
  end ;;
  mret (make_response (BodyText "") HTTP_204_NO_CONTENT []).

(** The routes the [@app.route] decorators declare.  A path of the
    service reached with a method it has no route for is a 405. *)
Inductive method := GET | POST | PUT | DELETE.

Inductive path :=
| path_index
| path_health
| path_accounts
| path_account (id : Z).

Definition dispatch (today : Date.date) (m : method) (p : path) (req : request)
  : M response :=
  match m, p with
  | GET, path_health => health
  | GET, path_index => index
  | POST, path_accounts => create_accounts today req
  | GET, path_accounts => list_accounts
  | GET, path_account id => read_account id
  | PUT, path_account id => update_account today id req
  | DELETE, path_account id => delete_account id
  | _, _ => abort 405 None
  end.

(** Modelled from the spec: the error handlers of the missing
    [service/common/error_handlers.py].  "Client input errors" become a 4xx
    "with message": a validation error is a 400, an [abort] answers with its
    own code, a fault of the model layer is a server error. *)
Definition error_response (e : exn) : response :=
  match e with
  | HTTPException code description => mkResponse code (BodyError description) []
  | DataValidationError msg =>
      mkResponse HTTP_400_BAD_REQUEST (BodyError (Some msg)) []
  | ModelError msg =>
      mkResponse HTTP_500_INTERNAL_SERVER_ERROR (BodyError (Some msg)) []
  end.

(** One request served against the table: the response sent and the table
    afterwards. *)
Definition serve (h : M response) (st : store) : response * store :=
  match h st with
  | (Ok r, st') => (r, st')
  | (Err e, st') => (error_response e, st')
  end.

End Routes.

(** ** Payloads, as the handlers receive them *)

Import Models Routes status.

Section payloads.

Implicit Types (a self : Account) (data : json) (today : Date.date).

(** The reading of one key of a payload as an account attribute. *)
Definition payload_string data (k : string) : option string :=
  match get data k with
  | Some (JStr s) => Some s
  | _ => None
  end.

Definition payload_date today data : Date.date :=
  match get data "date_joined" with
  | Some (JStr s) => default today (Date.fromisoformat s)
  | _ => today
  end.

Definition is_string (o : option json) : bool :=
  match o with
  | Some (JStr _) => true
  | _ => false
  end.

Definition is_optional_string (o : option json) : bool :=
  match o with
  | None | Some JNull | Some (JStr _) => true
  | Some _ => false
  end.

Definition is_optional_date (o : option json) : bool :=
  match o with
  | None | Some JNull => true
  | Some (JStr s) => bool_decide (is_Some (Date.fromisoformat s))
  | Some _ => false
  end.

(** A valid payload: a mapping with the three required strings, and with
    [phone_number] and [date_joined], where given, a string and an ISO
    date. *)
Definition valid_payload data : bool :=
  is_string (get data "name") && is_string (get data "email") &&
  is_string (get data "address") &&
  is_optional_string (get data "phone_number") &&
  is_optional_date (get data "date_joined").

(** The account a valid payload describes, under a given [id]. *)
Definition account_of_payload today (i : option Z) data : Account :=
  mkAccount i (payload_string data "name") (payload_string data "email")
    (payload_string data "address") (payload_string data "phone_number")
    (Some (payload_date today data)).

End payloads.

(** ** Sequences of requests *)

(** A computation that keeps the invariant of the table. *)
Definition preserves {A} (m : M A) : Prop :=
  ∀ st, wf_store st → wf_store (m st).2.

(** The table after a sequence of requests, from a given table on. *)
Fixpoint serve_all (calls : list (Date.date * method * path * request))
    (st : store) : store :=
  match calls with
  | [] => st
  | (today, m, p, req) :: calls =>
      serve_all calls (serve (dispatch today m p req) st).2
  end.

(** The array that GET /accounts returns. *)
Definition listing (st : store) : list json :=
  match data (serve list_accounts st).1 with
  | BodyJson (JArr out) => out
  | _ => []
  end.

(** ** tests.test_routes *)

(** The test cases of [tests/test_routes.py], as functions that say whether
    every assertion of the test holds.  An account of [AccountFactory] (not
    among the sources) is an argument of the test; the table a test starts
    from is whatever the test before it left. *)
Module Tests.
Import Models Routes status.

Definition BASE_URL : path := path_accounts.

(** [BASE_URL + "/" + str(id)], for the [id] read off a response: the route
    [/accounts/<int:id>] matches the decimal form of a natural number only. *)
Definition account_url (v : option json) : option path :=
  match v with
  | Some (JNum i) => if 0 <=? i then Some (path_account i) else None
  | _ => None
  end.

(** [setUp]: every row is deleted; the id sequence is not reset. *)
Definition setUp (st : store) : store := mkStore ∅ (next_id st).

(** [self.client.open]: a URL with no route is answered 404. *)
Definition client_open (today : Date.date) (m : method) (url : option path)
    (req : request) (st : store) : response * store :=
  match url with
  | Some p => serve (dispatch today m p req) st
  | None => (mkResponse HTTP_404_NOT_FOUND (BodyError None) [], st)
  end.

(** The request the client builds from [json=x] (and, where given,
    [content_type="application/json"]). *)
Definition json_request (x : json) : request :=
  mkRequest (Some "application/json") (Ok x).

(** A request with no body and no Content-Type, as [client.get(url)] and
    [client.delete(url)] send it. *)
Definition no_body : request := mkRequest None (Err (HTTPException 415 None)).

(** [response.get_json()], and [v[k]] on what it returns ([None] stands for
    the exception a missing key or a body that is no mapping raises). *)
Definition response_get_json (r : response) : option json :=
  match data r with
  | BodyJson j => Some j
  | _ => None
  end.

Definition item (v : option json) (k : string) : option json :=
  j ← v; get j k.

(** [v == s] between a JSON value and an attribute that is a string or
    [None]. *)
Definition eq_str (v : option json) (s : option string) : bool :=
  match v, s with
  | Some (JStr a), Some b => String.eqb a b
  | Some JNull, None => true
  | _, _ => false
  end.

(** [str(d)] of a date attribute. *)
Definition str_date (d : option Date.date) : option string :=
  match d with
  | Some d => Some (Date.isoformat d)
  | None => Some "None"
  end.

(** [account.id = v], for the [id] read off a response. *)
Definition set_id (v : json) (account : Account) : Account :=
  mkAccount (match v with JNum i => Some i | _ => None end)
    (name account) (email account) (address account) (phone_number account)
    (date_joined account).

(** [_create_accounts] (test_routes.py, l.62-76); [factory] lists the accounts
    [AccountFactory()] hands out, one per round of the loop. *)
Fixpoint _create_accounts (today : Date.date) (factory : list Account) (st : store)
  : option (list Account) * store :=
  match factory with
  | [] => (Some [], st)
  | account :: factory =>
      let '(response, st) :=
        client_open today POST (Some BASE_URL)
          (json_request (JObj (serialize account))) st in
      if status_code response =? HTTP_201_CREATED then
        let new_account := response_get_json response in
        match item new_account "id" with
        | Some v =>
            let account := set_id v account in
            let '(accounts, st) := _create_accounts today factory st in
            (cons account <$> accounts, st)
        | None => (None, st)
        end
      else (None, st)
  end.

(** [test_index] (l.82-85) and [test_health] (l.87-92). *)
Definition test_index (today : Date.date) (st : store) : bool :=
  let st := setUp st in
  let '(response, st) := client_open today GET (Some path_index) no_body st in
  status_code response =? HTTP_200_OK.

Definition test_health (today : Date.date) (st : store) : bool :=
  let st := setUp st in
  let '(resp, st) := client_open today GET (Some path_health) no_body st in
  (status_code resp =? 200) &&
  (let data := response_get_json resp in
   eq_str (item data "status") (Some "OK")).

(** [test_create_account] (l.94-114). *)
Definition test_create_account (today : Date.date) (account : Account) (st : store)
  : bool :=
  let st := setUp st in
  let '(response, st) :=
    client_open today POST (Some BASE_URL)
      (json_request (JObj (serialize account))) st in
  (status_code response =? HTTP_201_CREATED) &&
  (let location := (list_to_map (headers response) : gmap string string) !! "Location" in
   bool_decide (is_Some location)) &&
  (let new_account := response_get_json response in
   eq_str (item new_account "name") (name account) &&
   eq_str (item new_account "email") (email account) &&
   eq_str (item new_account "address") (address account) &&
   eq_str (item new_account "phone_number") (phone_number account) &&
   eq_str (item new_account "date_joined") (str_date (date_joined account))).

(** [test_bad_request] (l.116-119). *)
Definition test_bad_request (today : Date.date) (st : store) : bool :=
  let st := setUp st in
  let '(response, st) :=
    client_open today POST (Some BASE_URL)
      (json_request (JObj {[ "name" := JStr "not enough data" ]})) st in
  status_code response =? HTTP_400_BAD_REQUEST.

(** [test_unsupported_media_type] (l.121-129); [parsed] is what the framework
    makes of a JSON body sent as "test/html". *)
Definition test_unsupported_media_type (today : Date.date) (account : Account)
    (parsed : result json) (st : store) : bool :=
  let st := setUp st in
  let '(response, st) :=
    client_open today POST (Some BASE_URL) (mkRequest (Some "test/html") parsed) st in
  status_code response =? HTTP_415_UNSUPPORTED_MEDIA_TYPE.

(** [test_method_not_allowed] (l.131-134). *)
Definition test_method_not_allowed (today : Date.date) (st : store) : bool :=
  let st := setUp st in
  let '(response, st) := client_open today POST (Some (path_account 0)) no_body st in
  status_code response =? 405.

(** [test_read_an_account] (l.138-149). *)
Definition test_read_an_account (today : Date.date) (account : Account) (st : store)
  : bool :=
  let st := setUp st in
  let '(response, st) :=
    client_open today POST (Some BASE_URL)
      (json_request (JObj (serialize account))) st in
  let id := item (response_get_json response) "id" in
  let '(read_response, st) := client_open today GET (account_url id) no_body st in
  (status_code read_response =? HTTP_200_OK) &&
  eq_str (item (response_get_json read_response) "name") (name account).

(** [test_account_not_found] (l.151-154). *)
Definition test_account_not_found (today : Date.date) (st : store) : bool :=
  let st := setUp st in
  let '(read_response, st) := client_open today GET (Some (path_account 0)) no_body st in
  status_code read_response =? HTTP_404_NOT_FOUND.

(** [test_delete_account] (l.156-171). *)
Definition test_delete_account (today : Date.date) (account : Account) (st : store)
  : bool :=
  let st := setUp st in
  let '(response, st) :=
    client_open today POST (Some BASE_URL)
      (json_request (JObj (serialize account))) st in
  let id := item (response_get_json response) "id" in
  let '(read_response, st) := client_open today GET (account_url id) no_body st in
  (status_code read_response =? HTTP_200_OK) &&
  eq_str (item (response_get_json read_response) "name") (name account) &&
  (let '(delete_response, st) := client_open today DELETE (account_url id) no_body st in
   (status_code delete_response =? HTTP_204_NO_CONTENT) &&
   (let '(read_response, st) := client_open today GET (account_url id) no_body st in
    status_code read_response =? HTTP_404_NOT_FOUND)).

(** [test_delete_account_not_found] (l.173-176). *)
Definition test_delete_account_not_found (today : Date.date) (st : store) : bool :=
  let st := setUp st in
  let '(delete_response, st) :=
    client_open today DELETE (Some (path_account 0)) no_body st in
  status_code delete_response =? HTTP_204_NO_CONTENT.

(** [test_list_accounts] (l.178-200). *)
Definition test_list_accounts (today : Date.date) (acc_one acc_two : Account)
    (st : store) : bool :=
  let st := setUp st in
  let '(_, st) :=
    client_open today POST (Some BASE_URL)
      (json_request (JObj (serialize acc_one))) st in
  let '(_, st) :=
    client_open today POST (Some BASE_URL)
      (json_request (JObj (serialize acc_two))) st in
  let '(response, st) := client_open today GET (Some BASE_URL) no_body st in
  (status_code response =? HTTP_200_OK) &&
  match response_get_json response with
  | Some (JArr data) =>
      (length data =? 2)%nat &&
      (let test_acc := data !! 0%nat in
       if eq_str (item test_acc "name") (name acc_one)
       then eq_str (item test_acc "name") (name acc_one)
       else eq_str (item test_acc "name") (name acc_two))
  | _ => false
  end.

(** [test_list_accounts_none_found] (l.202-206). *)
Definition test_list_accounts_none_found (today : Date.date) (st : store) : bool :=
  let st := setUp st in
  let '(response, st) := client_open today GET (Some BASE_URL) no_body st in
  (status_code response =? HTTP_200_OK) &&
  match response_get_json response with
  | Some (JArr []) => true
  | _ => false
  end.

(** [test_update_accounts] (l.208-225). *)
Definition test_update_accounts (today : Date.date) (acc acc_new : Account)
    (st : store) : bool :=
  let st := setUp st in
  let '(response, st) :=
    client_open today POST (Some BASE_URL) (json_request (JObj (serialize acc))) st in
  let id := item (response_get_json response) "id" in
  let '(put_response, st) :=
    client_open today PUT (account_url id)
      (json_request (JObj (serialize acc_new))) st in
  (status_code put_response =? HTTP_200_OK) &&
  (let '(get_response, st) := client_open today GET (account_url id) no_body st in
   eq_str (item (response_get_json get_response) "name") (name acc_new)).

(** [test_update_accounts_not_found] (l.227-235). *)
Definition test_update_accounts_not_found (today : Date.date) (acc : Account)
    (st : store) : bool :=
  let st := setUp st in
  let '(response, st) :=
    client_open today PUT (Some (path_account 0))
      (json_request (JObj (serialize acc))) st in
  status_code response =? HTTP_404_NOT_FOUND.

End Tests.

(** ** Sample data *)

Definition today0 : Date.date := Date.mkDate 2024 2 29.

Definition payload0 : json :=
  JObj (<["name" := JStr "Ann Lee"]>
        (<["email" := JStr "ann@example.org"]>
        (<["address" := JStr "1 Main St"]>
        (<["date_joined" := JStr "2023-11-05"]> ∅)))).

Definition request0 : request := mkRequest (Some "application/json") (Ok payload0).

Definition account0 : Account := account_of_payload today0 (Some 1) payload0.

Definition store0 : store := mkStore {[ 1 := account0 ]} 2.

Definition payload1 : json :=
  JObj (<["name" := JStr "Bo Chen"]>
        (<["email" := JStr "bo@example.org"]>
        (<["address" := JStr "22 Oak Ave"]>
        (<["phone_number" := JStr "555-0101"]> ∅)))).

Definition request1 : request := mkRequest (Some "application/json") (Ok payload1).

Definition request_html : request := mkRequest (Some "text/html") (Ok payload0).

Definition payload_no_email : json :=
  JObj (<["name" := JStr "not enough data"]> ∅).

Definition request_no_email : request :=
  mkRequest (Some "application/json") (Ok payload_no_email).

Definition response0 : response :=
  mkResponse 201
    (BodyJson (JObj (serialize (account_of_payload today0 (Some 2) payload1))))
    [("Location", "/")].

Definition account1 : Account := account_of_payload today0 None payload1.

Definition calls0 : list (Date.date * method * path * request) :=
  [ (today0, POST, path_accounts, request0);
    (today0, POST, path_accounts, request1);
    (today0, DELETE, path_account 1, request0) ].

(** * Properties *)

(** ** ISO dates *)

Module DateFacts.
Import Date.

Ltac digits := Z.div_mod_to_equations; lia.

Lemma digit_of_digit_char (n : Z) :
  0 ≤ n < 10 → digit_of_char (digit_char n) = Some n.
Proof.
  intros Hn.
  assert (n = 0 ∨ n = 1 ∨ n = 2 ∨ n = 3 ∨ n = 4 ∨
          n = 5 ∨ n = 6 ∨ n = 7 ∨ n = 8 ∨ n = 9) as Hc by lia.
  repeat destruct Hc as [-> | Hc]; try subst n; reflexivity.
Qed.

Lemma digit_char_of_digit (c : ascii) (n : Z) :
  digit_of_char c = Some n → digit_char n = c ∧ 0 ≤ n < 10.
Proof.
  unfold digit_of_char, digit_char.
  destruct (_ && _) eqn:Hr; [|discriminate].
  intros [= <-]. apply andb_prop in Hr as [H1 H2].
  apply Z.leb_le in H1, H2. split; [|lia].
  replace (48 + (Z.of_nat (nat_of_ascii c) - 48)) with (Z.of_nat (nat_of_ascii c)) by lia.
  rewrite Nat2Z.id. apply ascii_nat_embedding.
Qed.

Lemma valid_bounds (d : date) :
  valid d = true →
  1 ≤ year d ≤ 9999 ∧ 1 ≤ month d ≤ 12 ∧ 1 ≤ day d ≤ 31.
Proof.
  unfold valid. rewrite !andb_true_iff, !Z.leb_le.
  intros [[[[[? ?] ?] ?] ?] Hd].
  assert (days_in_month (year d) (month d) ≤ 31).
  { unfold days_in_month. destruct (is_leap _).
    all: repeat match goal with |- context [match ?x with _ => _ end] =>
           destruct x end; lia. }
  lia.
Qed.

Lemma fromisoformat_isoformat (d : date) :
  valid d = true → fromisoformat (isoformat d) = Some d.
Proof.
  intros Hv. pose proof (valid_bounds d Hv) as (Hy & Hm & Hd).
  destruct d as [y m dd]; simpl in *.
  unfold isoformat, four_digits, two_digits; simpl.
  rewrite !digit_of_digit_char by (apply Z.mod_pos_bound; lia).
  simpl.
  replace (1000 * (y / 1000 mod 10) + 100 * (y / 100 mod 10)
           + 10 * (y / 10 mod 10) + y mod 10) with y by digits.
  replace (10 * (m / 10 mod 10) + m mod 10) with m by digits.
  replace (10 * (dd / 10 mod 10) + dd mod 10) with dd by digits.
  by rewrite Hv.
Qed.

(** A string that reads as a date is the ISO rendering of that date. *)
Lemma isoformat_fromisoformat (s : string) (d : date) :
  fromisoformat s = Some d → isoformat d = s ∧ valid d = true.
Proof.
  unfold fromisoformat.
  do 10 (destruct s as [|? s]; [discriminate|]).
  destruct s; [|discriminate].
  destruct (is_dash a3 && is_dash a6) eqn:Hd; [|discriminate].
  apply andb_prop in Hd as [Hd1 Hd2].
  apply Ascii.eqb_eq in Hd1, Hd2. subst a3 a6.
  repeat (match goal with
          | |- context [digit_of_char ?c] =>
              destruct (digit_of_char c) eqn:?; [|discriminate]
          end; simpl).
  destruct (valid _) eqn:Hv; [|discriminate].
  intros [= <-]. split; [|done].
  repeat match goal with
         | H : digit_of_char _ = Some _ |- _ =>
             apply digit_char_of_digit in H as [<- ?]
         end.
  unfold isoformat, four_digits, two_digits; cbv [String.append year month day].
  repeat f_equal; digits.
Qed.

End DateFacts.

(** ** The entity contract *)

Section entity.

Implicit Types (a self : Account) (data : json) (today : Date.date).

Lemma required_string_ok data k :
  is_string (get data k) = true →
  required_string data k = Ok (default "" (payload_string data k)) ∧
  payload_string data k = Some (default "" (payload_string data k)).
Proof.
  unfold required_string, payload_string, is_string.
  destruct (get data k) as [[]|]; try discriminate. done.
Qed.

Lemma optional_string_ok data k :
  is_optional_string (get data k) = true →
  optional_string data k = Ok (payload_string data k).
Proof.
  unfold optional_string, payload_string, is_optional_string.
  destruct (get data k) as [[]|]; try discriminate; done.
Qed.

Lemma optional_date_ok today data :
  is_optional_date (get data "date_joined") = true →
  optional_date today data "date_joined" = Ok (payload_date today data).
Proof.
  unfold optional_date, payload_date, is_optional_date.
  destruct (get data "date_joined") as [[]|]; try discriminate; try done.
  intros [d ->]%bool_decide_eq_true. done.
Qed.

(** A valid payload passes validation, and populates every attribute but
    [id]. *)
Lemma deserialize_valid today self data :
  valid_payload data = true →
  deserialize today self data = Ok (account_of_payload today (id self) data).
Proof.
  unfold valid_payload. rewrite !andb_true_iff.
  intros [[[[Hn He] Ha] Hp] Hd].
  apply required_string_ok in Hn as [Hn Hn'], He as [He He'], Ha as [Ha Ha'].
  unfold deserialize, account_of_payload.
  rewrite Hn, He, Ha, (optional_string_ok _ _ Hp), (optional_date_ok _ _ Hd).
  simpl. by rewrite <- Hn', <- He', <- Ha'.
Qed.

(** Conversely, only valid payloads pass. *)
Lemma deserialize_Ok_valid today self data a :
  deserialize today self data = Ok a → valid_payload data = true.
Proof.
  unfold deserialize, valid_payload, required_string, optional_string,
    optional_date, is_string, is_optional_string, is_optional_date.
  destruct (get data "name") as [[]|]; try discriminate.
  destruct (get data "email") as [[]|]; try discriminate.
  destruct (get data "address") as [[]|]; try discriminate.
  destruct (get data "phone_number") as [[]|]; try discriminate;
    destruct (get data "date_joined") as [[]|]; try discriminate;
    simpl; try done;
    (destruct (Date.fromisoformat _) eqn:Hd; [|discriminate];
     intros _; by apply bool_decide_eq_true).
Qed.

(** A missing required key is a validation error. *)
Lemma deserialize_missing today self data :
  get data "name" = None ∨ get data "email" = None ∨ get data "address" = None →
  ∃ msg, deserialize today self data = Err (DataValidationError msg).
Proof.
  unfold deserialize, required_string.
  intros [H | [H | H]].
  - rewrite H. eauto.
  - rewrite H. destruct (get data "name") as [[]|]; simpl; eauto.
  - rewrite H.
    destruct (get data "name") as [[]|]; simpl; eauto;
      destruct (get data "email") as [[]|]; simpl; eauto.
Qed.

Lemma serialize_id a : serialize a !! "id" = Some (json_of_option JNum (id a)).
Proof. reflexivity. Qed.

Lemma serialize_name a : serialize a !! "name" = Some (json_of_option JStr (name a)).
Proof. reflexivity. Qed.

Lemma serialize_email a : serialize a !! "email" = Some (json_of_option JStr (email a)).
Proof. reflexivity. Qed.

Lemma serialize_address a :
  serialize a !! "address" = Some (json_of_option JStr (address a)).
Proof. reflexivity. Qed.

Lemma serialize_phone_number a :
  serialize a !! "phone_number" = Some (json_of_option JStr (phone_number a)).
Proof. reflexivity. Qed.

Lemma serialize_date_joined a :
  serialize a !! "date_joined" =
  Some (json_of_option (λ d, JStr (Date.isoformat d)) (date_joined a)).
Proof. reflexivity. Qed.

End entity.

(** ** The storage layer keeps its invariant *)

Section storage.

Implicit Types (a : Account) (st : store) (i : Z).

Lemma wf_store_lookup st i a :
  wf_store st → rows st !! i = Some a → id a = Some i ∧ i < next_id st.
Proof. intros Hwf Hi. exact (Hwf i a Hi). Qed.

Lemma wf_empty_store : wf_store empty_store.
Proof. apply map_Forall_empty. Qed.

Lemma wf_create st a :
  wf_store st → wf_store (create a st).2.
Proof.
  intros Hwf. unfold create, wf_store; simpl.
  apply map_Forall_insert_2; [split; [done | lia]|].
  intros j b Hj. destruct (Hwf j b Hj). split; [done | lia].
Qed.

Lemma wf_update st a :
  wf_store st → wf_store (update a st).2.
Proof.
  intros Hwf. unfold update.
  destruct (id a) as [i|] eqn:Hid; [|done].
  destruct (rows st !! i) as [b|] eqn:Hi; [|done].
  unfold wf_store; simpl.
  apply map_Forall_insert_2; [|done].
  split; [done|]. by destruct (Hwf i b Hi).
Qed.

Lemma wf_delete st a :
  wf_store st → wf_store (delete a st).2.
Proof.
  intros Hwf. unfold delete.
  destruct (id a) as [i|]; [|done].
  unfold wf_store; simpl. by apply map_Forall_delete.
Qed.

End storage.

(** ** The handlers *)

Section handlers.

Implicit Types (a : Account) (st : store) (i : Z) (req : request)
  (data : json) (today : Date.date).

Lemma check_content_type_accepts req media_type st :
  media_type ≠ "" →
  content_type req = Some media_type →
  check_content_type req media_type st = (Ok tt, st).
Proof.
  intros Hne Hct. unfold check_content_type. rewrite Hct. simpl.
  rewrite bool_decide_eq_true_2 by done.
  by apply String.eqb_neq in Hne as ->.
Qed.

Lemma check_content_type_rejects req media_type st :
  content_type req ≠ Some media_type →
  check_content_type req media_type st =
    (Err (HTTPException HTTP_415_UNSUPPORTED_MEDIA_TYPE
            (Some ("Content-Type must be " ++ media_type))), st).
Proof.
  intros Hct. unfold check_content_type.
  rewrite (bool_decide_eq_false_2 _ Hct), andb_false_r. done.
Qed.

(** What [create_accounts] does once the media type is accepted. *)
Lemma create_accounts_json today req st :
  content_type req = Some "application/json" →
  create_accounts today req st =
    match get_json req with
    | Ok data =>
        match deserialize today new_account data with
        | Ok a =>
            let a' := mkAccount (Some (next_id st)) (name a) (email a)
                        (address a) (phone_number a) (date_joined a) in
            (Ok (mkResponse HTTP_201_CREATED (BodyJson (JObj (serialize a')))
                   [("Location", "/")]),
             mkStore (<[next_id st := a']> (rows st)) (next_id st + 1))
        | Err e => (Err e, st)
        end
    | Err e => (Err e, st)
    end.
Proof.
  intros Hct. unfold create_accounts, mbind, M_bind.
  rewrite (check_content_type_accepts req _ st) by done.
  unfold lift. destruct (get_json req) as [data|e]; [|done].
  destruct (deserialize today new_account data) as [a|e]; done.
Qed.

Lemma preserves_ret {A} (x : A) : preserves (mret x).
Proof. by intros st Hwf. Qed.

Lemma preserves_raise {A} (e : exn) : preserves (@raise A e).
Proof. by intros st Hwf. Qed.

Lemma preserves_lift {A} (r : result A) : preserves (lift r).
Proof. by intros st Hwf. Qed.

Lemma preserves_bind {A B} (m : M A) (k : A → M B) :
  preserves m → (∀ x, preserves (k x)) → preserves (m ≫= k).
Proof.
  intros Hm Hk st Hwf. unfold mbind, M_bind.
  specialize (Hm st Hwf). destruct (m st) as [[x|e] st1]; [|done].
  by apply Hk.
Qed.

Lemma preserves_check_content_type req media_type :
  preserves (check_content_type req media_type).
Proof.
  unfold check_content_type.
  destruct (_ && _); [apply preserves_ret | apply preserves_raise].
Qed.

Create HintDb preserves.

#[local] Hint Resolve preserves_ret preserves_raise preserves_lift
  preserves_check_content_type : preserves.

Lemma preserves_dispatch today m p req : preserves (dispatch today m p req).
Proof.
  destruct m, p; simpl; try apply preserves_raise; try apply preserves_ret.
  - apply preserves_bind; [by intros st Hwf|]. intros accs. apply preserves_ret.
  - apply preserves_bind; [by intros st Hwf|].
    intros [a|]; [apply preserves_ret | apply preserves_raise].
  - unfold create_accounts.
    repeat (apply preserves_bind; [solve [auto with preserves] | intros ?]).
    apply preserves_bind; [intros st; apply wf_create | intros ?].
    apply preserves_ret.
  - apply preserves_bind; [by intros st Hwf|].
    intros [a|]; [|apply preserves_ret].
    repeat (apply preserves_bind; [solve [auto with preserves] | intros ?]).
    apply preserves_bind; [intros st; apply wf_update | intros ?].
    apply preserves_bind; [by intros st Hwf|].
    intros [b|]; [apply preserves_ret | apply preserves_raise].
  - apply preserves_bind; [by intros st Hwf|].
    intros [a|]; (apply preserves_bind; [|intros ?; apply preserves_ret]);
      [intros st; apply wf_delete | apply preserves_ret].
Qed.

Lemma serve_wf (h : M response) st :
  preserves h → wf_store st → wf_store (serve h st).2.
Proof.
  intros Hh Hwf. unfold serve. specialize (Hh st Hwf).
  by destruct (h st) as [[r|e] st1].
Qed.

(** Every table the service can reach from the empty one is well formed. *)
Lemma reachable_wf calls : wf_store (serve_all calls empty_store).
Proof.
  generalize wf_empty_store. generalize empty_store as st.
  induction calls as [|[[[today m] p] req] calls IH]; intros st Hwf; [done|].
  simpl. apply IH. by apply serve_wf; [apply preserves_dispatch|].
Qed.

(** On a well-formed table the generated id is not in use: a create adds a
    row and overwrites none. *)
Lemma next_id_fresh st : wf_store st → rows st !! next_id st = None.
Proof.
  intros Hwf. destruct (rows st !! next_id st) as [a|] eqn:Hi; [|done].
  destruct (wf_store_lookup _ _ _ Hwf Hi). lia.
Qed.

End handlers.

(** ** Create, then read *)

(** C1: for a valid JSON payload (name, email and address present), sent as
    application/json, POST /accounts answers 201 with the serialized created
    account and a Location header, and GET /accounts/{id} on the returned id
    answers 200 with the same serialized account: the payload's name, email,
    address and phone_number (null when not given), the assigned id, and
    date_joined (the payload's, or the date of creation when not given). *)
Theorem create_then_read (today : Date.date) (req : request) (st : store) (data : json) :
  content_type req = Some "application/json" →
  get_json req = Ok data →
  valid_payload data = true →
  let i := next_id st in
  let acc := account_of_payload today (Some i) data in
  let st' := mkStore (<[i := acc]> (rows st)) (i + 1) in
  serve (create_accounts today req) st =
    (mkResponse 201 (BodyJson (JObj (serialize acc))) [("Location", "/")], st') ∧
  serve (read_account i) st' =
    (mkResponse 200 (BodyJson (JObj (serialize acc))) [], st') ∧
  serialize acc !! "id" = Some (JNum i) ∧
  serialize acc !! "name" = get data "name" ∧
  serialize acc !! "email" = get data "email" ∧
  serialize acc !! "address" = get data "address" ∧
  serialize acc !! "phone_number" = Some (default JNull (get data "phone_number")) ∧
  serialize acc !! "date_joined" =
    Some (match get data "date_joined" with
          | Some (JStr s) => JStr s
          | _ => JStr (Date.isoformat today)
          end) ∧
  dom (serialize acc) =
    {[ "id"; "name"; "email"; "address"; "phone_number"; "date_joined" ]}.
Proof.
  intros Hct Hjson Hvalid i acc st'.
  split; [|split].
  - unfold serve. rewrite create_accounts_json, Hjson by done.
    by rewrite (deserialize_valid _ _ _ Hvalid).
  - unfold serve, read_account, mbind, M_bind, find. simpl.
    by rewrite lookup_insert_eq.
  - unfold valid_payload in Hvalid. rewrite !andb_true_iff in Hvalid.
    destruct Hvalid as [[[[Hn He] Ha] Hp] Hd].
    rewrite serialize_id, serialize_name, serialize_email, serialize_address,
      serialize_phone_number, serialize_date_joined.
    unfold acc, account_of_payload, payload_string, payload_date; simpl.
    unfold is_string in Hn, He, Ha.
    unfold is_optional_string in Hp. unfold is_optional_date in Hd.
    destruct (get data "name") as [[]|]; try discriminate.
    destruct (get data "email") as [[]|]; try discriminate.
    destruct (get data "address") as [[]|]; try discriminate.
    repeat (split; [done|]).
    split; [by destruct (get data "phone_number") as [[]|]|].
    split.
    + destruct (get data "date_joined") as [[| | | |sd| |]|]; try done.
      apply bool_decide_eq_true in Hd as [d Hd]. rewrite Hd. simpl.
      by destruct (DateFacts.isoformat_fromisoformat _ _ Hd) as [-> _].
    + unfold serialize. rewrite !dom_insert_L, dom_empty_L. set_solver.
Qed.

Lemma create_then_read_witness :
  content_type request0 = Some "application/json" ∧
  get_json request0 = Ok payload0 ∧
  valid_payload payload0 = true ∧
  serve (read_account 1) (serve (create_accounts today0 request0) empty_store).2 =
    (mkResponse 200
       (BodyJson (JObj (serialize (account_of_payload today0 (Some 1) payload0)))) [],
     mkStore {[ 1 := account_of_payload today0 (Some 1) payload0 ]} 2).
Proof.
  do 3 (split; [reflexivity|]).
  destruct (create_then_read today0 request0 empty_store payload0) as (Hc & Hr & _);
    [reflexivity..|].
  rewrite Hc. exact Hr.
Defined.

(** ** Delete *)

(** C2: DELETE /accounts/{id} answers 204 with an empty body whether or not
    the row exists, a second DELETE of the same id answers 204 again and
    changes nothing, and a GET on that id then answers 404. *)
Theorem delete_idempotent (i : Z) (st : store) :
  wf_store st →
  let st' := mkStore (base.delete i (rows st)) (next_id st) in
  serve (delete_account i) st = (mkResponse 204 (BodyText "") [], st') ∧
  serve (delete_account i) st' = (mkResponse 204 (BodyText "") [], st') ∧
  read_account i st' = (Err (HTTPException 404 None), st') ∧
  serve (read_account i) st' = (mkResponse 404 (BodyError None) [], st') ∧
  (rows st !! i = None → st' = st).
Proof.
  intros Hwf st'.
  assert (rows st' !! i = None) as Hgone by apply lookup_delete_eq.
  repeat split.
  - unfold serve, delete_account, mbind, M_bind, find; simpl.
    destruct (rows st !! i) as [a|] eqn:Hi; simpl.
    + destruct (wf_store_lookup _ _ _ Hwf Hi) as [Hid _].
      unfold delete. by rewrite Hid.
    + unfold st'. rewrite delete_id by done. by destruct st.
  - unfold serve, delete_account, mbind, M_bind, find. by rewrite Hgone.
  - unfold read_account, mbind, M_bind, find. by rewrite Hgone.
  - unfold serve, read_account, mbind, M_bind, find. by rewrite Hgone.
  - intros Hi. unfold st'. rewrite delete_id by done. by destruct st.
Qed.

Lemma delete_idempotent_witness :
  wf_store store0 ∧
  serve (delete_account 1) store0 = (mkResponse 204 (BodyText "") [], mkStore ∅ 2) ∧
  serve (delete_account 1) (mkStore ∅ 2) = (mkResponse 204 (BodyText "") [], mkStore ∅ 2) ∧
  serve (read_account 1) (mkStore ∅ 2) = (mkResponse 404 (BodyError None) [], mkStore ∅ 2).
Proof.
  assert (wf_store store0) as Hwf by (apply (bool_decide_unpack _); vm_compute; exact I).
  split; [exact Hwf|].
  destruct (delete_idempotent 1 store0 Hwf) as (H1 & H2 & _ & H3 & _).
  split; [exact H1|]. split; [exact H2 | exact H3].
Defined.

(** ** Update *)

(** C3: PUT /accounts/{id} on an id with no row answers 404 and leaves the
    table as it was: no row is created and none is modified. *)
Theorem update_unknown (today : Date.date) (i : Z) (req : request) (st : store) :
  rows st !! i = None →
  serve (update_account today i req) st = (mkResponse 404 (BodyText "") [], st).
Proof.
  intros Hi. unfold serve, update_account, mbind, M_bind, find. by rewrite Hi.
Qed.

Lemma update_unknown_witness :
  rows store0 !! 7 = None ∧
  serve (update_account today0 7 request0) store0 =
    (mkResponse 404 (BodyText "") [], store0).
Proof.
  split; [reflexivity|]. apply (update_unknown today0 7 request0 store0). reflexivity.
Defined.

(** C4: PUT /accounts/{id} on an existing row with a valid payload overwrites
    name, email, address, phone_number and date_joined with what the payload
    gives (null for an absent phone_number, the date of the request for an
    absent date_joined), keeps the row's id, touches no other row, and answers
    200 with the serialized updated account. *)
Theorem update_existing (today : Date.date) (i : Z) (req : request) (st : store)
    (data : json) (a : Account) :
  wf_store st →
  rows st !! i = Some a →
  get_json req = Ok data →
  valid_payload data = true →
  let a' := mkAccount (id a) (payload_string data "name") (payload_string data "email")
              (payload_string data "address") (payload_string data "phone_number")
              (Some (payload_date today data)) in
  serve (update_account today i req) st =
    (mkResponse 200 (BodyJson (JObj (serialize a'))) [],
     mkStore (<[i := a']> (rows st)) (next_id st)) ∧
  id a' = Some i ∧
  is_Some (name a') ∧ is_Some (email a') ∧ is_Some (address a').
Proof.
  intros Hwf Hi Hjson Hvalid a'.
  destruct (wf_store_lookup _ _ _ Hwf Hi) as [Hid _].
  split; [|split; [done|]].
  - unfold serve, update_account, mbind, M_bind, find, lift. rewrite Hi, Hjson.
    rewrite (deserialize_valid _ _ _ Hvalid).
    unfold update, account_of_payload; simpl. rewrite Hid, Hi; simpl.
    rewrite lookup_insert_eq. unfold a'. by rewrite Hid.
  - unfold valid_payload in Hvalid. rewrite !andb_true_iff in Hvalid.
    destruct Hvalid as [[[[Hn He] Ha] _] _].
    apply required_string_ok in Hn as [_ Hn], He as [_ He], Ha as [_ Ha].
    simpl. rewrite Hn, He, Ha. eauto.
Qed.

Lemma update_existing_witness :
  wf_store store0 ∧
  rows store0 !! 1 = Some account0 ∧
  get_json request1 = Ok payload1 ∧
  valid_payload payload1 = true ∧
  serve (update_account today0 1 request1) store0 =
    (mkResponse 200
       (BodyJson (JObj (serialize
          (mkAccount (Some 1) (Some "Bo Chen") (Some "bo@example.org")
             (Some "22 Oak Ave") (Some "555-0101") (Some today0))))) [],
     mkStore {[ 1 := mkAccount (Some 1) (Some "Bo Chen") (Some "bo@example.org")
                       (Some "22 Oak Ave") (Some "555-0101") (Some today0) ]} 2).
Proof.
  assert (wf_store store0) as Hwf by (apply (bool_decide_unpack _); vm_compute; exact I).
  split; [exact Hwf|]. do 3 (split; [reflexivity|]).
  destruct (update_existing today0 1 request1 store0 payload1 account0 Hwf)
    as [Hu _]; [reflexivity..|].
  rewrite Hu. reflexivity.
Defined.

(** ** List *)

(** C5: GET /accounts always answers 200 with a JSON array that holds the
    serialization of every stored account, one element per row, and leaves
    the table alone; on an empty table the array is empty. *)
Theorem list_accounts_all (st : store) :
  let out := (λ ia, JObj (serialize ia.2)) <$> map_to_list (rows st) in
  serve list_accounts st = (mkResponse 200 (BodyJson (JArr out)) [], st) ∧
  length out = size (rows st) ∧
  (∀ j, j ∈ out ↔ ∃ i a, rows st !! i = Some a ∧ j = JObj (serialize a)) ∧
  (rows st = ∅ → out = []).
Proof.
  intros out. repeat split.
  - unfold serve, list_accounts, mbind, M_bind, all; simpl.
    unfold out. by rewrite <- list_fmap_compose.
  - unfold out. by rewrite length_fmap, length_map_to_list.
  - unfold out. intros ([i a] & -> & Hin)%list_elem_of_fmap.
    apply elem_of_map_to_list in Hin. eauto.
  - intros (i & a & Hi & ->). unfold out. apply list_elem_of_fmap.
    exists (i, a). split; [done|]. by apply elem_of_map_to_list.
  - intros Hempty. unfold out. by rewrite Hempty, map_to_list_empty.
Qed.

(** ** Input errors on create *)

(** C6: POST /accounts whose Content-Type is not application/json answers 415
    with the message "Content-Type must be application/json" and creates no
    row, whatever the body is. *)
Theorem create_wrong_media_type (today : Date.date) (req : request) (st : store) :
  content_type req ≠ Some "application/json" →
  create_accounts today req st =
    (Err (HTTPException 415 (Some "Content-Type must be application/json")), st) ∧
  serve (create_accounts today req) st =
    (mkResponse 415 (BodyError (Some "Content-Type must be application/json")) [], st).
Proof.
  intros Hct. unfold serve, create_accounts, mbind, M_bind.
  by rewrite check_content_type_rejects.
Qed.

Lemma create_wrong_media_type_witness :
  content_type request_html ≠ Some "application/json" ∧
  valid_payload payload0 = true ∧
  serve (create_accounts today0 request_html) store0 =
    (mkResponse 415 (BodyError (Some "Content-Type must be application/json")) [],
     store0).
Proof.
  split; [discriminate|]. split; [reflexivity|].
  apply (create_wrong_media_type today0 request_html store0). discriminate.
Defined.

(** C7: POST /accounts with a JSON body that lacks name, email or address
    answers 400, and the table is unchanged: deserialize raises its
    validation error, so create is never reached. *)
Theorem create_missing_field (today : Date.date) (req : request) (st : store)
    (data : json) :
  content_type req = Some "application/json" →
  get_json req = Ok data →
  get data "name" = None ∨ get data "email" = None ∨ get data "address" = None →
  ∃ msg,
    deserialize today new_account data = Err (DataValidationError msg) ∧
    serve (create_accounts today req) st =
      (mkResponse 400 (BodyError (Some msg)) [], st).
Proof.
  intros Hct Hjson Hmiss.
  destruct (deserialize_missing today new_account data Hmiss) as [msg Hd].
  exists msg. split; [done|].
  unfold serve. by rewrite create_accounts_json, Hjson, Hd.
Qed.

Lemma create_missing_field_witness :
  content_type request_no_email = Some "application/json" ∧
  get_json request_no_email = Ok payload_no_email ∧
  get payload_no_email "email" = None ∧
  ∃ msg,
    deserialize today0 new_account payload_no_email = Err (DataValidationError msg) ∧
    serve (create_accounts today0 request_no_email) store0 =
      (mkResponse 400 (BodyError (Some msg)) [], store0).
Proof.
  do 3 (split; [reflexivity|]).
  apply (create_missing_field today0 request_no_email store0 payload_no_email);
    [reflexivity | reflexivity | right; left; reflexivity].
Defined.

(** ** Round trip *)

(** C8: for a fully populated account [a], deserializing [serialize a] onto
    any instance restores name, email, address, phone_number and date_joined
    of [a], and leaves the instance's own id as it was. *)
Theorem deserialize_serialize (today : Date.date) (self a : Account) :
  fully_populated a →
  deserialize today self (JObj (serialize a)) =
    Ok (mkAccount (id self) (name a) (email a) (address a) (phone_number a)
          (date_joined a)).
Proof.
  intros ([n Hn] & [e He] & [ad Ha] & d & Hd & Hv).
  unfold deserialize, required_string, optional_string, optional_date, get.
  rewrite serialize_name, serialize_email, serialize_address,
    serialize_phone_number, serialize_date_joined.
  rewrite Hn, He, Ha, Hd. cbn [json_of_option].
  rewrite (DateFacts.fromisoformat_isoformat d Hv).
  by destruct (phone_number a).
Qed.

Lemma deserialize_serialize_witness :
  fully_populated account0 ∧
  deserialize today0 new_account (JObj (serialize account0)) =
    Ok (mkAccount None (name account0) (email account0) (address account0)
          (phone_number account0) (date_joined account0)).
Proof.
  assert (fully_populated account0) as Hf.
  { repeat split; try (eexists; reflexivity).
    eexists. split; reflexivity. }
  split; [exact Hf|].
  apply (deserialize_serialize today0 new_account account0 Hf).
Defined.

(** ** The Location header *)

(** C9: every successful POST /accounts answers with the Location header "/",
    the same for every account created, whatever its id. *)
Theorem create_location (today : Date.date) (req : request) (st st' : store)
    (r : response) :
  create_accounts today req st = (Ok r, st') →
  status_code r = 201 ∧ headers r = [("Location", "/")].
Proof.
  unfold create_accounts, mbind, M_bind, lift.
  destruct (check_content_type req "application/json" st) as [[[]|e] st1];
    [|discriminate].
  destruct (get_json req) as [data|e]; [|discriminate].
  destruct (deserialize today new_account data) as [a|e]; [|discriminate].
  simpl. by intros [= <- _].
Qed.

Lemma create_location_witness :
  create_accounts today0 request1 store0 =
    (Ok response0,
     mkStore (<[2 := account_of_payload today0 (Some 2) payload1]> (rows store0)) 3) ∧
  status_code response0 = 201 ∧ headers response0 = [("Location", "/")].
Proof.
  assert (create_accounts today0 request1 store0 =
    (Ok response0,
     mkStore (<[2 := account_of_payload today0 (Some 2) payload1]> (rows store0)) 3))
    as Hc by reflexivity.
  split; [exact Hc|].
  exact (create_location today0 request1 store0 _ response0 Hc).
Defined.

(** ** The content-type check *)

(** C10: the check passes only for a Content-Type header equal, as a string,
    to application/json; a missing header or any other value is refused with
    415. *)
Theorem check_content_type_exact (req : request) (st : store) :
  check_content_type req "application/json" st =
    if bool_decide (content_type req = Some "application/json")
    then (Ok tt, st)
    else (Err (HTTPException 415 (Some "Content-Type must be application/json")), st).
Proof.
  case_bool_decide as Hct.
  - by apply check_content_type_accepts.
  - by apply check_content_type_rejects.
Qed.

Example check_content_type_no_header (st : store) (body : result json) :
  check_content_type (mkRequest None body) "application/json" st =
    (Err (HTTPException 415 (Some "Content-Type must be application/json")), st).
Proof. reflexivity. Qed.

Example check_content_type_charset (st : store) (body : result json) :
  check_content_type (mkRequest (Some "application/json; charset=utf-8") body)
    "application/json" st =
    (Err (HTTPException 415 (Some "Content-Type must be application/json")), st).
Proof. reflexivity. Qed.

(** * Further properties of the handlers *)

Section more_handlers.

Implicit Types (a : Account) (st : store) (i : Z) (req : request)
  (data : json) (today : Date.date).

Lemma deserialize_id today self data a :
  deserialize today self data = Ok a → id a = id self.
Proof.
  unfold deserialize.
  destruct (required_string data "name"); [|discriminate].
  destruct (required_string data "email"); [|discriminate].
  destruct (required_string data "address"); [|discriminate].
  destruct (optional_string data "phone_number"); [|discriminate].
  destruct (optional_date today data "date_joined"); [|discriminate].
  simpl. by intros [= <-].
Qed.

(** What [update_account] does on a row that is there and carries its own
    id. *)
Lemma update_account_found today i req st a :
  rows st !! i = Some a →
  id a = Some i →
  update_account today i req st =
    match get_json req with
    | Ok data =>
        match deserialize today a data with
        | Ok a' =>
            (Ok (mkResponse HTTP_200_OK (BodyJson (JObj (serialize a'))) []),
             mkStore (<[i := a']> (rows st)) (next_id st))
        | Err e => (Err e, st)
        end
    | Err e => (Err e, st)
    end.
Proof.
  intros Hi Hid. unfold update_account, mbind, M_bind, find, lift. rewrite Hi.
  destruct (get_json req) as [data|e]; [|done].
  destruct (deserialize today a data) as [a'|e] eqn:Hd; [|done].
  apply deserialize_id in Hd. unfold update. rewrite Hd, Hid, Hi. simpl.
  by rewrite lookup_insert_eq.
Qed.

Lemma update_account_missing today i req st :
  rows st !! i = None →
  update_account today i req st =
    (Ok (mkResponse HTTP_404_NOT_FOUND (BodyText "") []), st).
Proof.
  intros Hi. unfold update_account, mbind, M_bind, find. by rewrite Hi.
Qed.

Lemma delete_account_eq i st :
  wf_store st →
  delete_account i st =
    (Ok (mkResponse HTTP_204_NO_CONTENT (BodyText "") []),
     mkStore (base.delete i (rows st)) (next_id st)).
Proof.
  intros Hwf. unfold delete_account, mbind, M_bind, find; simpl.
  destruct (rows st !! i) as [a|] eqn:Hi; simpl.
  - destruct (wf_store_lookup _ _ _ Hwf Hi) as [Hid _].
    unfold delete. by rewrite Hid.
  - rewrite delete_id by done. by destruct st.
Qed.

End more_handlers.

(** ** The content-type check, for any expected media type *)

(** X1: [check_content_type] lets a request through exactly when its
    Content-Type header equals the expected media type and that string is not
    empty; otherwise it aborts with 415 and a message naming the expected
    type.  It never changes the table. *)
Theorem check_content_type_general (req : request) (media_type : string) (st : store) :
  check_content_type req media_type st =
    if bool_decide (content_type req = Some media_type ∧ media_type ≠ "")
    then (Ok tt, st)
    else (Err (HTTPException 415 (Some ("Content-Type must be " ++ media_type))), st).
Proof.
  case_bool_decide as H.
  - destruct H as [Hct Hne]. by apply check_content_type_accepts.
  - destruct (decide (content_type req = Some media_type)) as [Hct|Hct].
    + assert (media_type = "") as -> by (destruct (decide (media_type = "")); tauto).
      unfold check_content_type. by rewrite Hct.
    + by apply check_content_type_rejects.
Qed.

(** ** Failures and safe methods *)

(** X2: a request that ends in an exception (an abort, a validation error, a
    fault of the model layer) leaves the table exactly as it was, on every
    route. *)
Theorem exception_leaves_table (today : Date.date) (m : method) (p : path)
    (req : request) (st st' : store) (e : exn) :
  dispatch today m p req st = (Err e, st') → st' = st.
Proof.
  destruct m, p; simpl;
    unfold health, index, list_accounts, read_account, create_accounts,
      update_account, delete_account, check_content_type,
      mbind, M_bind, mret, M_ret, abort, raise, lift, find, all; simpl;
    try (by (intros ?; simplify_eq)).
  - destruct (rows st !! id0); by (intros ?; simplify_eq).
  - destruct (_ && _); simpl; [|by (intros ?; simplify_eq)].
    destruct (get_json req) as [data|e']; [|by (intros ?; simplify_eq)].
    destruct (deserialize today new_account data); by (intros ?; simplify_eq).
  - destruct (rows st !! id0) as [a|] eqn:Hi; [|discriminate].
    destruct (get_json req) as [data|e']; [|by (intros ?; simplify_eq)].
    destruct (deserialize today a data) as [a'|e']; [|by (intros ?; simplify_eq)].
    unfold update. destruct (id a') as [j|]; [|by (intros ?; simplify_eq)].
    destruct (rows st !! j) eqn:Hj; [|by (intros ?; simplify_eq)]. simpl.
    destruct (decide (j = id0)) as [->|Hne].
    + rewrite lookup_insert_eq. by (intros ?; simplify_eq).
    + rewrite lookup_insert_ne, Hi by done. by (intros ?; simplify_eq).
  - destruct (rows st !! id0) as [a|]; [|discriminate].
    unfold delete. destruct (id a); by (intros ?; simplify_eq).
Qed.

Lemma exception_leaves_table_witness :
  dispatch today0 POST path_accounts request_no_email store0 =
    (Err (DataValidationError "Invalid Account: missing email"), store0).
Proof.
  assert (∃ st', dispatch today0 POST path_accounts request_no_email store0 =
    (Err (DataValidationError "Invalid Account: missing email"), st')) as [st' H]
    by (eexists; reflexivity).
  rewrite H. f_equal. exact (exception_leaves_table _ _ _ _ _ _ _ H).
Defined.

(** X3: GET never changes the table, whatever the path: [health], [index],
    [list_accounts] and [read_account] only read. *)
Theorem get_leaves_table (today : Date.date) (p : path) (req : request) (st : store) :
  (serve (dispatch today GET p req) st).2 = st.
Proof.
  destruct p; try reflexivity.
  unfold serve; simpl. unfold read_account, mbind, M_bind, find; simpl.
  by destruct (rows st !! id0).
Qed.

(** ** What a successful create stores *)

(** X4: when POST /accounts succeeds on a well-formed table, the body it
    returns is the serialization of the one row it added, under an id that
    was not in use; every earlier row is still there unchanged, and the
    table has exactly one row more. *)
Theorem create_adds_one_row (today : Date.date) (req : request) (st st' : store)
    (r : response) :
  wf_store st →
  create_accounts today req st = (Ok r, st') →
  ∃ a : Account,
    data r = BodyJson (JObj (serialize a)) ∧
    id a = Some (next_id st) ∧
    rows st !! next_id st = None ∧
    rows st' = <[next_id st := a]> (rows st) ∧
    (∀ j b, rows st !! j = Some b → rows st' !! j = Some b) ∧
    size (rows st') = S (size (rows st)).
Proof.
  intros Hwf Hc.
  pose proof (next_id_fresh st Hwf) as Hfresh.
  assert (content_type req = Some "application/json") as Hct.
  { destruct (decide (content_type req = Some "application/json")) as [|Hne]; [done|].
    unfold create_accounts, mbind, M_bind in Hc.
    by rewrite check_content_type_rejects in Hc. }
  rewrite create_accounts_json in Hc by done.
  destruct (get_json req) as [data|e]; [|discriminate].
  destruct (deserialize today new_account data) as [a|e]; [|discriminate].
  simpl in Hc. injection Hc as <- <-. simpl.
  eexists. repeat split; try done.
  - intros j b Hj. rewrite lookup_insert_ne; [done|]. intros <-. congruence.
  - by apply map_size_insert_None.
Qed.

Lemma create_adds_one_row_witness :
  wf_store store0 ∧
  ∃ a : Account,
    data response0 = BodyJson (JObj (serialize a)) ∧
    id a = Some 2 ∧
    rows store0 !! 2 = None.
Proof.
  assert (wf_store store0) as Hwf by (apply (bool_decide_unpack _); vm_compute; exact I).
  split; [exact Hwf|].
  assert (create_accounts today0 request1 store0 =
    (Ok response0,
     mkStore (<[2 := account_of_payload today0 (Some 2) payload1]> (rows store0)) 3))
    as Hc by reflexivity.
  destruct (create_adds_one_row today0 request1 store0 _ response0 Hwf Hc)
    as (a & Hb & Hid & Hfresh & _).
  exists a. split; [exact Hb|]. split; [exact Hid | exact Hfresh].
Defined.

(** ** Update: what it keeps, how it fails, how it repeats *)

(** X5: PUT /accounts/{id} never adds or removes a row and never touches a
    row other than the one addressed, whatever the request holds; the id
    sequence does not move. *)
Theorem update_frame (today : Date.date) (i : Z) (req : request) (st : store) :
  wf_store st →
  let st' := (serve (update_account today i req) st).2 in
  dom (rows st') = dom (rows st) ∧
  next_id st' = next_id st ∧
  (∀ j, j ≠ i → rows st' !! j = rows st !! j) ∧
  (∀ b, rows st' !! i = Some b → id b = Some i).
Proof.
  intros Hwf st'.
  assert (wf_store st') as Hwf'.
  { apply serve_wf; [|done]. apply (preserves_dispatch today PUT (path_account i)). }
  assert (st' = st ∨ ∃ a', is_Some (rows st !! i) ∧
            st' = mkStore (<[i := a']> (rows st)) (next_id st)) as Hcase.
  { unfold st', serve. destruct (rows st !! i) as [a|] eqn:Hi.
    - destruct (wf_store_lookup _ _ _ Hwf Hi) as [Hid _].
      rewrite (update_account_found _ _ _ _ a) by done.
      destruct (get_json req) as [data|e]; [|by left].
      destruct (deserialize today a data) as [a'|e]; [|by left].
      right. by exists a'.
    - rewrite update_account_missing by done. by left. }
  split; [|split; [|split]].
  - destruct Hcase as [-> | (a' & His & ->)]; [done|]. simpl.
    rewrite dom_insert_L. apply subseteq_union_1_L.
    apply singleton_subseteq_l. by apply elem_of_dom.
  - by destruct Hcase as [-> | (a' & _ & ->)].
  - intros j Hne. destruct Hcase as [-> | (a' & _ & ->)]; [done|]. simpl.
    by rewrite lookup_insert_ne.
  - intros b Hb. by destruct (wf_store_lookup _ _ _ Hwf' Hb).
Qed.

Lemma update_frame_witness :
  wf_store store0 ∧
  dom (rows (serve (update_account today0 1 request1) store0).2) = dom (rows store0) ∧
  next_id (serve (update_account today0 1 request1) store0).2 = next_id store0.
Proof.
  assert (wf_store store0) as Hwf by (apply (bool_decide_unpack _); vm_compute; exact I).
  split; [exact Hwf|].
  destruct (update_frame today0 1 request1 store0 Hwf) as (Hdom & Hnext & _).
  split; [exact Hdom | exact Hnext].
Defined.

(** X6: PUT /accounts/{id} on an existing row with a body that lacks name,
    email or address is answered 400, and the row keeps its old values: the
    validation error is raised before [update] is called. *)
Theorem update_missing_field (today : Date.date) (i : Z) (req : request) (st : store)
    (data : json) (a : Account) :
  rows st !! i = Some a →
  get_json req = Ok data →
  get data "name" = None ∨ get data "email" = None ∨ get data "address" = None →
  ∃ msg,
    serve (update_account today i req) st =
      (mkResponse 400 (BodyError (Some msg)) [], st).
Proof.
  intros Hi Hjson Hmiss.
  destruct (deserialize_missing today a data Hmiss) as [msg Hd].
  exists msg. unfold serve, update_account, mbind, M_bind, find, lift.
  by rewrite Hi, Hjson, Hd.
Qed.

Lemma update_missing_field_witness :
  rows store0 !! 1 = Some account0 ∧
  get_json request_no_email = Ok payload_no_email ∧
  get payload_no_email "address" = None ∧
  ∃ msg,
    serve (update_account today0 1 request_no_email) store0 =
      (mkResponse 400 (BodyError (Some msg)) [], store0).
Proof.
  do 3 (split; [reflexivity|]).
  apply (update_missing_field today0 1 request_no_email store0 payload_no_email account0);
    [reflexivity | reflexivity | right; right; reflexivity].
Defined.



(** ** Listing and reading agree *)

(** X8: in every table the service reaches from the empty one, whatever the
    requests were, each element of the GET /accounts array carries a numeric
    "id", and GET /accounts/{id} on that id answers 200 with that very
    element. *)
Theorem listed_accounts_readable
    (calls : list (Date.date * method * path * request)) (j : json) :
  let st := serve_all calls empty_store in
  j ∈ listing st →
  ∃ (i : Z) (d : gmap string json),
    j = JObj d ∧ d !! "id" = Some (JNum i) ∧
    serve (read_account i) st = (mkResponse 200 (BodyJson j) [], st).
Proof.
  intros st Hj. pose proof (reachable_wf calls) as Hwf. fold st in Hwf.
  unfold listing, serve, list_accounts, mbind, M_bind, all in Hj. simpl in Hj.
  apply list_elem_of_fmap in Hj as (a & -> & Ha).
  apply list_elem_of_fmap in Ha as ([i a'] & -> & Hi). simpl.
  apply elem_of_map_to_list in Hi.
  destruct (wf_store_lookup _ _ _ Hwf Hi) as [Hid _].
  exists i, (serialize a'). split; [done|]. split.
  - by rewrite serialize_id, Hid.
  - unfold serve, read_account, mbind, M_bind, find. by rewrite Hi.
Qed.

Lemma listed_accounts_readable_witness :
  JObj (serialize (account_of_payload today0 (Some 2) payload1))
    ∈ listing (serve_all calls0 empty_store) ∧
  ∃ (i : Z) (d : gmap string json),
    JObj (serialize (account_of_payload today0 (Some 2) payload1)) = JObj d ∧
    d !! "id" = Some (JNum i).
Proof.
  assert (JObj (serialize (account_of_payload today0 (Some 2) payload1))
            ∈ listing (serve_all calls0 empty_store)) as Hin.
  { vm_compute. apply list_elem_of_here. }
  split; [exact Hin|].
  destruct (listed_accounts_readable calls0 _ Hin) as (i & d & Hj & Hid & _).
  exists i, d. split; [exact Hj | exact Hid].
Defined.

(** ** The test suite *)

Import Tests.

Section test_suite.

Implicit Types (a account : Account) (st : store) (i : Z) (today : Date.date).

(** What [serialize] writes, [deserialize] reads back. *)
Lemma deserialize_serialized today self a :
  fully_populated a →
  deserialize today self (JObj (serialize a)) =
    Ok (mkAccount (id self) (name a) (email a) (address a) (phone_number a)
          (date_joined a)).
Proof.
  intros ([n Hn] & [e He] & [ad Ha] & d & Hd & Hv).
  unfold deserialize, required_string, optional_string, optional_date, get.
  rewrite serialize_name, serialize_email, serialize_address,
    serialize_phone_number, serialize_date_joined.
  rewrite Hn, He, Ha, Hd. cbn [json_of_option].
  rewrite (DateFacts.fromisoformat_isoformat d Hv).
  by destruct (phone_number a).
Qed.

(** The client posting a serialized account. *)
Lemma post_serialized today a st :
  fully_populated a →
  client_open today POST (Some BASE_URL) (json_request (JObj (serialize a))) st =
    (mkResponse 201 (BodyJson (JObj (serialize (set_id (JNum (next_id st)) a))))
       [("Location", "/")],
     mkStore (<[next_id st := set_id (JNum (next_id st)) a]> (rows st))
       (next_id st + 1)).
Proof.
  intros Hfull. unfold client_open, BASE_URL, serve, dispatch.
  rewrite create_accounts_json by done. simpl.
  by rewrite deserialize_serialized.
Qed.

Lemma get_stored today i a st :
  rows st !! i = Some a →
  client_open today GET (Some (path_account i)) no_body st =
    (mkResponse 200 (BodyJson (JObj (serialize a))) [], st).
Proof.
  intros Hi. unfold client_open, serve, dispatch, read_account, mbind, M_bind, find.
  by rewrite Hi.
Qed.

Lemma get_absent today i st :
  rows st !! i = None →
  client_open today GET (Some (path_account i)) no_body st =
    (mkResponse 404 (BodyError None) [], st).
Proof.
  intros Hi. unfold client_open, serve, dispatch, read_account, mbind, M_bind, find.
  by rewrite Hi.
Qed.

Lemma eq_str_json (s : option string) :
  eq_str (Some (json_of_option JStr s)) s = true.
Proof. destruct s; [apply String.eqb_refl | done]. Qed.

Lemma item_name a :
  item (Some (JObj (serialize a))) "name" = Some (json_of_option JStr (name a)).
Proof. reflexivity. Qed.

Lemma item_id a :
  item (Some (JObj (serialize a))) "id" = Some (json_of_option JNum (id a)).
Proof. reflexivity. Qed.

Lemma account_url_id i :
  0 ≤ i → account_url (Some (JNum i)) = Some (path_account i).
Proof. intros Hi. unfold account_url. by apply Z.leb_le in Hi as ->. Qed.

End test_suite.

(** X9: [test_create_account] passes for every fully populated account the
    factory may hand out, from any table: the POST answers 201 with a
    Location header and echoes name, email, address, phone_number and the
    ISO form of date_joined. *)
Theorem test_create_account_passes (today : Date.date) (account : Account)
    (st : store) :
  fully_populated account →
  test_create_account today account st = true.
Proof.
  intros Hfull. unfold test_create_account. rewrite post_serialized by done.
  destruct Hfull as (_ & _ & _ & d & Hd & _).
  cbn [status_code headers response_get_json data].
  change (item (Some (JObj (serialize ?a))) "name")
    with (Some (json_of_option JStr (name a))).
  change (item (Some (JObj (serialize ?a))) "email")
    with (Some (json_of_option JStr (email a))).
  change (item (Some (JObj (serialize ?a))) "address")
    with (Some (json_of_option JStr (address a))).
  change (item (Some (JObj (serialize ?a))) "phone_number")
    with (Some (json_of_option JStr (phone_number a))).
  change (item (Some (JObj (serialize ?a))) "date_joined")
    with (Some (json_of_option (λ d, JStr (Date.isoformat d)) (date_joined a))).
  cbn [set_id name email address phone_number date_joined].
  rewrite !eq_str_json, Hd. cbn [json_of_option str_date eq_str].
  rewrite String.eqb_refl. reflexivity.
Qed.

Lemma test_create_account_passes_witness :
  fully_populated account0 ∧ test_create_account today0 account0 store0 = true.
Proof.
  assert (fully_populated account0) as Hf.
  { repeat split; try (eexists; reflexivity).
    eexists. split; reflexivity. }
  split; [exact Hf|].
  exact (test_create_account_passes today0 account0 store0 Hf).
Defined.

(** X10: [test_read_an_account] passes for every fully populated account:
    the id a POST returns leads GET to the account posted. *)
Theorem test_read_an_account_passes (today : Date.date) (account : Account)
    (st : store) :
  fully_populated account →
  0 ≤ next_id st →
  test_read_an_account today account st = true.
Proof.
  intros Hfull Hnext. unfold test_read_an_account.
  rewrite post_serialized by done.
  cbn [response_get_json data setUp next_id rows].
  rewrite item_id. cbn [set_id id json_of_option].
  rewrite account_url_id by done.
  rewrite (get_stored _ _ (set_id (JNum (next_id st)) account))
    by (simpl; apply lookup_insert_eq).
  cbn [status_code response_get_json data]. rewrite item_name.
  cbn [set_id name]. by rewrite eq_str_json.
Qed.

Lemma test_read_an_account_passes_witness :
  fully_populated account0 ∧ 0 ≤ next_id store0 ∧
  test_read_an_account today0 account0 store0 = true.
Proof.
  assert (fully_populated account0) as Hf.
  { repeat split; try (eexists; reflexivity).
    eexists. split; reflexivity. }
  split; [exact Hf|]. split; [simpl; lia|].
  apply (test_read_an_account_passes today0 account0 store0 Hf). simpl; lia.
Defined.

(** X11: [test_delete_account] passes for every fully populated account:
    created, it is read back; deleted (204), the same GET answers 404. *)
Theorem test_delete_account_passes (today : Date.date) (account : Account)
    (st : store) :
  fully_populated account →
  0 ≤ next_id st →
  test_delete_account today account st = true.
Proof.
  intros Hfull Hnext. unfold test_delete_account.
  rewrite post_serialized by done.
  cbn [response_get_json data setUp next_id rows].
  rewrite item_id. cbn [set_id id json_of_option].
  rewrite account_url_id by done.
  rewrite (get_stored _ _ (set_id (JNum (next_id st)) account))
    by (simpl; apply lookup_insert_eq).
  cbn [status_code response_get_json data]. rewrite item_name.
  cbn [set_id name]. rewrite eq_str_json.
  unfold client_open at 1. unfold serve, dispatch.
  rewrite delete_account_eq.
  - cbn [status_code rows next_id].
    rewrite get_absent by (simpl; apply lookup_delete_eq). reflexivity.
  - unfold wf_store; simpl. apply map_Forall_insert_2; [|apply map_Forall_empty].
    split; [done | lia].
Qed.

Lemma test_delete_account_passes_witness :
  fully_populated account0 ∧ 0 ≤ next_id store0 ∧
  test_delete_account today0 account0 store0 = true.
Proof.
  assert (fully_populated account0) as Hf.
  { repeat split; try (eexists; reflexivity).
    eexists. split; reflexivity. }
  split; [exact Hf|]. split; [simpl; lia|].
  apply (test_delete_account_passes today0 account0 store0 Hf). simpl; lia.
Defined.

(** X12: [test_update_accounts] passes for every two fully populated
    accounts: after a PUT of the second on the id of the first, GET returns
    the second one's name. *)
Theorem test_update_accounts_passes (today : Date.date) (acc acc_new : Account)
    (st : store) :
  fully_populated acc →
  fully_populated acc_new →
  0 ≤ next_id st →
  test_update_accounts today acc acc_new st = true.
Proof.
  intros Hfull Hnew Hnext. unfold test_update_accounts.
  rewrite post_serialized by done.
  cbn [response_get_json data setUp next_id rows].
  rewrite item_id. cbn [set_id id json_of_option].
  rewrite account_url_id by done.
  unfold client_open at 1. unfold serve, dispatch.
  rewrite (update_account_found _ _ _ _ (set_id (JNum (next_id st)) acc));
    [|simpl; apply lookup_insert_eq | done].
  cbn [json_request get_json]. rewrite deserialize_serialized by done.
  cbn [status_code rows next_id set_id id].
  erewrite get_stored by (simpl; apply lookup_insert_eq).
  cbn [response_get_json data]. rewrite item_name.
  cbn [name]. by rewrite eq_str_json.
Qed.

Lemma test_update_accounts_passes_witness :
  fully_populated account0 ∧ 0 ≤ next_id store0 ∧
  test_update_accounts today0 account0 account1 store0 = true.
Proof.
  assert (fully_populated account0) as Hf.
  { repeat split; try (eexists; reflexivity).
    eexists. split; reflexivity. }
  split; [exact Hf|]. split; [simpl; lia|].
  assert (fully_populated account1) as Hf1.
  { repeat split; try (eexists; reflexivity).
    eexists. split; reflexivity. }
  apply (test_update_accounts_passes today0 account0 account1 store0 Hf Hf1).
  simpl; lia.
Defined.

(** X13: [test_list_accounts] passes for every two fully populated accounts:
    after two POSTs on the emptied table GET /accounts answers 200 with
    exactly two elements, the first of which bears the name of one of the
    two accounts, in whichever order the table yields them. *)
Theorem test_list_accounts_passes (today : Date.date) (acc_one acc_two : Account)
    (st : store) :
  fully_populated acc_one →
  fully_populated acc_two →
  test_list_accounts today acc_one acc_two st = true.
Proof.
  intros Hone Htwo. unfold test_list_accounts.
  rewrite post_serialized by done. rewrite post_serialized by done.
  cbn [setUp next_id rows].
  set (n := next_id st).
  set (a1 := set_id (JNum n) acc_one). set (a2 := set_id (JNum (n + 1)) acc_two).
  assert (map_to_list (<[n + 1 := a2]> (<[n := a1]> (∅ : gmap Z Account)))
            ≡ₚ [(n + 1, a2); (n, a1)]) as Hperm.
  { rewrite map_to_list_insert
      by (rewrite lookup_insert_ne by lia; apply lookup_empty).
    by rewrite insert_empty, map_to_list_singleton. }
  unfold client_open, BASE_URL, serve, dispatch, list_accounts, mbind, M_bind, all.
  cbn [rows status_code response_get_json data make_response jsonify mret M_ret].
  symmetry in Hperm. apply Permutation_length_2_inv in Hperm as [-> | ->].
  - simpl. rewrite serialize_name. cbn [a2 set_id name].
    rewrite (eq_str_json (name acc_two)).
    by destruct (eq_str _ (name acc_one)).
  - simpl. rewrite serialize_name. cbn [a1 set_id name].
    by rewrite (eq_str_json (name acc_one)).
Qed.

Lemma test_list_accounts_passes_witness :
  fully_populated account0 ∧ fully_populated account1 ∧
  test_list_accounts today0 account0 account1 store0 = true.
Proof.
  assert (fully_populated account0) as Hf.
  { repeat split; try (eexists; reflexivity).
    eexists. split; reflexivity. }
  assert (fully_populated account1) as Hf1.
  { repeat split; try (eexists; reflexivity).
    eexists. split; reflexivity. }
  split; [exact Hf|]. split; [exact Hf1|].
  exact (test_list_accounts_passes today0 account0 account1 store0 Hf Hf1).
Defined.

(** X14: the tests that need no populated account pass from any table and
    for any account: index and health answer 200, a body with only a name
    is a 400, a body sent as "test/html" is a 415, POST on /accounts/0 is a
    405, GET and PUT on an id of the emptied table are 404, DELETE on it is
    204, and the listing of the emptied table is the empty array. *)
Theorem fixed_route_tests_pass (today : Date.date) (account : Account)
    (parsed : result json) (st : store) :
  test_index today st = true ∧
  test_health today st = true ∧
  test_bad_request today st = true ∧
  test_unsupported_media_type today account parsed st = true ∧
  test_method_not_allowed today st = true ∧
  test_account_not_found today st = true ∧
  test_delete_account_not_found today st = true ∧
  test_list_accounts_none_found today st = true ∧
  test_update_accounts_not_found today account st = true.
Proof. repeat split; reflexivity. Qed.

(** X15: [_create_accounts] carries out every round of its loop when the
    factory hands out fully populated accounts: each POST is a 201, the
    accounts returned are the factory's with consecutive ids from the next
    one of the sequence, each is stored under its id, and no row with a
    smaller id is touched. *)
Theorem create_accounts_in_bulk (today : Date.date) (factory : list Account)
    (st : store) :
  Forall fully_populated factory →
  ∃ st',
    _create_accounts today factory st =
      (Some (imap (λ k, set_id (JNum (next_id st + Z.of_nat k))) factory), st') ∧
    next_id st' = next_id st + Z.of_nat (length factory) ∧
    (∀ (k : nat) a, factory !! k = Some a →
       rows st' !! (next_id st + Z.of_nat k) =
         Some (set_id (JNum (next_id st + Z.of_nat k)) a)) ∧
    (∀ j, j < next_id st → rows st' !! j = rows st !! j).
Proof.
  intros Hall. revert st.
  induction Hall as [|a factory Ha Hall IH]; intros st.
  - exists st. simpl. repeat split; [lia | done].
  - cbn [_create_accounts]. rewrite post_serialized by done.
    cbn [status_code response_get_json data]. rewrite item_id.
    cbn [set_id id json_of_option].
    set (n := next_id st). set (a' := set_id (JNum n) a).
    change (201 =? HTTP_201_CREATED) with true. cbv iota.
    destruct (IH (mkStore (<[n := a']> (rows st)) (n + 1)))
      as (st' & Hrun & Hnext & Hrows & Hframe).
    cbn [next_id rows] in Hrun, Hnext, Hrows, Hframe.
    exists st'. rewrite Hrun. split; [|split; [|split]].
    + cbn [fmap option_fmap option_map]. f_equal. f_equal.
      rewrite imap_cons. f_equal.
      * unfold a'. by rewrite Z.add_0_r.
      * apply imap_ext. intros k b _. simpl. do 2 f_equal. lia.
    + rewrite Hnext. cbn [length]. lia.
    + intros [|k] b Hk.
      * injection Hk as ->. rewrite Z.add_0_r.
        rewrite Hframe by lia. apply lookup_insert_eq.
      * replace (n + Z.of_nat (S k)) with (n + 1 + Z.of_nat k) by lia.
        by apply Hrows.
    + intros j Hj. rewrite Hframe by lia. by rewrite lookup_insert_ne by lia.
Qed.

Lemma create_accounts_in_bulk_witness :
  Forall fully_populated [account0; account1] ∧
  ∃ st',
    _create_accounts today0 [account0; account1] store0 =
      (Some [set_id (JNum 2) account0; set_id (JNum 3) account1], st') ∧
    next_id st' = 4.
Proof.
  assert (fully_populated account0) as Hf.
  { repeat split; try (eexists; reflexivity).
    eexists. split; reflexivity. }
  assert (fully_populated account1) as Hf1.
  { repeat split; try (eexists; reflexivity).
    eexists. split; reflexivity. }
  assert (Forall fully_populated [account0; account1]) as Hall
    by (apply Forall_cons_2; [exact Hf | apply Forall_cons_2; [exact Hf1 | apply Forall_nil_2]]).
  split; [exact Hall|].
  destruct (create_accounts_in_bulk today0 _ store0 Hall) as (st' & Hrun & Hnext & _).
  exists st'. split; [exact Hrun | exact Hnext].
Defined.

(** ** Create composed with delete, and with itself *)

(** X16: on a well-formed table, deleting the account a successful POST has
    just created (by the id in the POST's body) puts the rows of the table
    back exactly as they were before the POST. *)
Theorem create_then_delete (today : Date.date) (req : request) (st st1 : store)
    (r : response) :
  wf_store st →
  create_accounts today req st = (Ok r, st1) →
  item (response_get_json r) "id" = Some (JNum (next_id st)) ∧
  serve (delete_account (next_id st)) st1 =
    (mkResponse 204 (BodyText "") [], mkStore (rows st) (next_id st1)).
Proof.
  intros Hwf Hc.
  assert (wf_store st1) as Hwf1.
  { pose proof (preserves_dispatch today POST path_accounts req st Hwf) as H.
    simpl in H. by rewrite Hc in H. }
  pose proof (next_id_fresh st Hwf) as Hfresh.
  assert (content_type req = Some "application/json") as Hct.
  { destruct (decide (content_type req = Some "application/json")) as [|Hne]; [done|].
    unfold create_accounts, mbind, M_bind in Hc.
    by rewrite check_content_type_rejects in Hc. }
  rewrite create_accounts_json in Hc by done.
  destruct (get_json req) as [data|e]; [|discriminate].
  destruct (deserialize today new_account data) as [a|e]; [|discriminate].
  simpl in Hc. injection Hc as <- <-. split; [reflexivity|].
  unfold serve. rewrite delete_account_eq by done. simpl.
  by rewrite delete_insert_id.
Qed.

Lemma create_then_delete_witness :
  wf_store store0 ∧
  serve (delete_account 2) (create_accounts today0 request1 store0).2 =
    (mkResponse 204 (BodyText "") [], mkStore (rows store0) 3).
Proof.
  assert (wf_store store0) as Hwf by (apply (bool_decide_unpack _); vm_compute; exact I).
  split; [exact Hwf|].
  assert (create_accounts today0 request1 store0 =
    (Ok response0,
     mkStore (<[2 := account_of_payload today0 (Some 2) payload1]> (rows store0)) 3))
    as Hc by reflexivity.
  rewrite Hc.
  exact (proj2 (create_then_delete today0 request1 store0 _ response0 Hwf Hc)).
Defined.

(** X17: POST /accounts is not idempotent: on a well-formed table the same
    accepted request sent twice is answered 201 both times, with two
    different ids, and both rows are in the table afterwards. *)
Theorem create_twice (today : Date.date) (req : request) (st st1 : store)
    (r1 : response) :
  wf_store st →
  create_accounts today req st = (Ok r1, st1) →
  ∃ (r2 : response) (st2 : store) (a1 a2 : Account),
    create_accounts today req st1 = (Ok r2, st2) ∧
    data r1 = BodyJson (JObj (serialize a1)) ∧
    data r2 = BodyJson (JObj (serialize a2)) ∧
    id a1 = Some (next_id st) ∧ id a2 = Some (next_id st + 1) ∧
    rows st2 !! next_id st = Some a1 ∧
    rows st2 !! (next_id st + 1) = Some a2 ∧
    size (rows st2) = S (S (size (rows st))).
Proof.
  intros Hwf Hc.
  pose proof (next_id_fresh st Hwf) as Hfresh.
  assert (wf_store st1) as Hwf1.
  { pose proof (preserves_dispatch today POST path_accounts req st Hwf) as H.
    simpl in H. by rewrite Hc in H. }
  pose proof (next_id_fresh st1 Hwf1) as Hfresh1.
  assert (content_type req = Some "application/json") as Hct.
  { destruct (decide (content_type req = Some "application/json")) as [|Hne]; [done|].
    unfold create_accounts, mbind, M_bind in Hc.
    by rewrite check_content_type_rejects in Hc. }
  rewrite create_accounts_json in Hc by done.
  rewrite create_accounts_json by done.
  destruct (get_json req) as [data|e]; [|discriminate].
  destruct (deserialize today new_account data) as [a|e]; [|discriminate].
  simpl in Hc. injection Hc as <- <-. simpl in *.
  eexists _, _, _, _. split; [reflexivity|]. simpl.
  repeat split.
  - rewrite lookup_insert_ne by lia. apply lookup_insert_eq.
  - apply lookup_insert_eq.
  - rewrite map_size_insert_None by done. by rewrite map_size_insert_None.
Qed.

Lemma create_twice_witness :
  wf_store store0 ∧
  ∃ (r2 : response) (st2 : store),
    create_accounts today0 request1 (create_accounts today0 request1 store0).2 =
      (Ok r2, st2) ∧
    size (rows st2) = 3%nat.
Proof.
  assert (wf_store store0) as Hwf by (apply (bool_decide_unpack _); vm_compute; exact I).
  split; [exact Hwf|].
  assert (create_accounts today0 request1 store0 =
    (Ok response0,
     mkStore (<[2 := account_of_payload today0 (Some 2) payload1]> (rows store0)) 3))
    as Hc by reflexivity.
  destruct (create_twice today0 request1 store0 _ response0 Hwf Hc)
    as (r2 & st2 & a1 & a2 & Hc2 & _ & _ & _ & _ & _ & _ & Hsize).
  exists r2, st2. rewrite Hc. split; [exact Hc2|].
  rewrite Hsize. reflexivity.
Defined.
